(** * Verification of the BigQuery agent callbacks and the HITL cost check

    Shallow embedding of
    - [src/bq-hitl-agent-app/agent.py]: [check_query_cost] and the session
      state writes of the human-in-the-loop app;
    - [src/bq_agent_app/agent.py]: [update_bigquery_api_count],
      [validate_sql_callback], [sql_query_dryrun_callback] and the
      before-tool callback list of [root_agent];
    - [src/bq-agent-app/config.py]: [BigQueryAgentConfiguration] and the
      module-level environment defaults;
    - [src/deploy_bq_agent.py]: the event filter of [test_run].

    Python values are [PyVal]; Python dicts (session state, tool arguments,
    tool responses) are [gmap string PyVal].  Code that may raise runs in a
    small state-and-exception monad [M] in which state written before an
    exception survives it, as Python's in-place dict writes do.  The
    BigQuery dry-run (an external client call) is an oracle [DryRun] that
    either returns the byte estimate or raises. *)

From Stdlib Require Import ZArith Lia Ascii String List.
From stdpp Require Import base gmap strings.
Import ListNotations.
Open Scope Z_scope.

(* ------------------------------------------------------------------ *)
(** ** Python values, dicts and exceptions *)

Inductive PyVal :=
| VNone
| VBool (b : bool)
| VInt (z : Z)
| VStr (s : string).

Abbreviation dict := (gmap string PyVal).

(** Python truthiness, as used by [if not query]. *)
Definition py_truthy (v : PyVal) : bool :=
  match v with
  | VNone => false
  | VBool b => b
  | VInt z => negb (z =? 0)
  | VStr s => negb (String.eqb s "")
  end.

(** A Python exception, kept abstract as its message. *)
Inductive exn := Exn (msg : string).

Inductive outcome (A : Type) :=
| Ret (a : A)
| Raise (e : exn).
Arguments Ret {A} a.
Arguments Raise {A} e.

(** [dict.get(key, default)] *)
Definition dict_get (d : dict) (k : string) (dflt : PyVal) : PyVal :=
  match d !! k with Some v => v | None => dflt end.

(** [key in dict] *)
Definition dict_has (d : dict) (k : string) : bool :=
  match d !! k with Some _ => true | None => false end.

(* ------------------------------------------------------------------ *)
(** ** State and exceptions: the session state threaded through a call *)

Definition M (A : Type) := dict -> outcome A * dict.

Definition ret {A} (a : A) : M A := fun s => (Ret a, s).
Definition raise {A} (e : exn) : M A := fun s => (Raise e, s).
Definition bind {A B} (m : M A) (k : A -> M B) : M B :=
  fun s => match m s with
           | (Ret a, s') => k a s'
           | (Raise e, s') => (Raise e, s')
           end.
Definition lift {A} (o : outcome A) : M A := fun s => (o, s).

(** [tool_context.state.get(k, dflt)] and [tool_context.state[k] = v] *)
Definition state_get (k : string) (dflt : PyVal) : M PyVal :=
  fun s => (Ret (dict_get s k dflt), s).
Definition state_set (k : string) (v : PyVal) : M unit :=
  fun s => (Ret tt, <[k := v]> s).

(** [try: m except Exception as e: h(e)] *)
Definition try_except {A} (m : M A) (h : exn -> M A) : M A :=
  fun s => match m s with
           | (Raise e, s') => h e s'
           | r => r
           end.

Notation "x <- m ;; k" := (bind m (fun x => k))
  (at level 100, m at next level, right associativity).
Notation "m ;;; k" := (bind m (fun _ => k))
  (at level 100, right associativity).

(* ------------------------------------------------------------------ *)
(** ** Strings: lowering, substring test, number formatting *)

(** [str.lower()] on ASCII letters; other bytes are left as they are. *)
Definition ascii_lower (c : ascii) : ascii :=
  let n := nat_of_ascii c in
  if (65 <=? n)%nat && (n <=? 90)%nat then ascii_of_nat (n + 32) else c.

Fixpoint py_lower (s : string) : string :=
  match s with
  | EmptyString => EmptyString
  | String c t => String (ascii_lower c) (py_lower t)
  end.

Fixpoint is_prefix (p s : string) : bool :=
  match p, s with
  | EmptyString, _ => true
  | String _ _, EmptyString => false
  | String a p', String b s' => Ascii.eqb a b && is_prefix p' s'
  end.

(** Python's [needle in hay] on strings. *)
Fixpoint str_contains (needle hay : string) : bool :=
  is_prefix needle hay ||
  match hay with
  | EmptyString => false
  | String _ t => str_contains needle t
  end.

Definition digit_char (d : Z) : ascii := ascii_of_nat (48 + Z.to_nat d).

(** Decimal digits of [n >= 0], least significant first. *)
Fixpoint digits_rev (fuel : nat) (n : Z) : list ascii :=
  match fuel with
  | O => []
  | S f => digit_char (n mod 10) ::
           (if n <? 10 then [] else digits_rev f (n / 10))
  end.

Definition nat_digits_rev (n : Z) : list ascii :=
  digits_rev (S (Z.to_nat (Z.log2 n))) n.

Definition sign_prefix (n : Z) : string := if n <? 0 then "-" else "".

(** [str(n)] / [f"{n}"] for an int. *)
Definition py_int_str (n : Z) : string :=
  sign_prefix n ++ string_of_list_ascii (rev (nat_digits_rev (Z.abs n))).

(** Insert a comma after every third digit (digits least significant first). *)
Fixpoint group3 (ds : list ascii) : list ascii :=
  match ds with
  | a :: b :: c :: ((_ :: _) as rest) => a :: b :: c :: ","%char :: group3 rest
  | _ => ds
  end.

(** [f"{n:,}"] for an int. *)
Definition py_int_commas (n : Z) : string :=
  sign_prefix n ++ string_of_list_ascii (rev (group3 (nat_digits_rev (Z.abs n)))).

(** [f"{n / d:.2f}"] for ints [n] and [d > 0], with the quotient taken
    exactly and rounded half to even.  Python rounds the float quotient
    instead, so the two differ when that float is not exact at a tie: for
    [n = 1015000], [d = 1000000] Python prints [1.01], this model [1.02].
    Only the message text depends on it. *)
Definition py_fixed2 (n d : Z) : string :=
  let a := Z.abs n * 100 in
  let q := a / d in
  let r := a mod d in
  let q' := if 2 * r >? d then q + 1
            else if 2 * r =? d then (if Z.even q then q else q + 1)
            else q in
  let frac := q' mod 100 in
  sign_prefix n ++ py_int_str (q' / 100) ++ "." ++
    String (digit_char (frac / 10)) (String (digit_char (frac mod 10)) EmptyString).

(** Drop the trailing zeros of a fractional part (digits least significant
    first), keeping at least one digit. *)
Fixpoint drop_trailing_zeros (ds : list ascii) : list ascii :=
  match ds with
  | "0"%char :: ((_ :: _) as rest) => drop_trailing_zeros rest
  | _ => ds
  end.

Fixpoint pad_to (k : nat) (ds : list ascii) : list ascii :=
  match k with
  | O => ds
  | S k' => if (length ds <=? k')%nat then pad_to k' ds ++ ["0"%char] else ds
  end.

(** [str(n / d)] for an int [n] and a power of ten [d = 10^k]: the exact
    decimal quotient with trailing zeros dropped and at least one fractional
    digit.  This is Python's float repr for quotients of at most fifteen
    significant digits in [[1e-4, 1e16)]; outside that range Python switches
    to exponent notation ([5e-05] where this model gives [0.00005]).  Only
    the message text depends on it. *)
Definition py_decimal_str (n : Z) (k : nat) : string :=
  let d := 10 ^ Z.of_nat k in
  let a := Z.abs n in
  let frac := pad_to k (nat_digits_rev (a mod d)) in
  sign_prefix n ++ py_int_str (a / d) ++ "." ++
    string_of_list_ascii (rev (drop_trailing_zeros frac)).

Example py_int_commas_ex : py_int_commas 2000000000 = "2,000,000,000".
Proof. reflexivity. Qed.
Example py_fixed2_ex1 : py_fixed2 2000000000 1000000000 = "2.00".
Proof. reflexivity. Qed.
Example py_fixed2_ex2 : py_fixed2 500000000 1000000 = "500.00".
Proof. reflexivity. Qed.
Example py_fixed2_ex3 : py_fixed2 1234567 1000000 = "1.23".
Proof. reflexivity. Qed.
Example py_decimal_str_ex1 : py_decimal_str 1000000000 9 = "1.0".
Proof. reflexivity. Qed.
Example py_decimal_str_ex2 : py_decimal_str 1500000000 9 = "1.5".
Proof. reflexivity. Qed.
Example py_decimal_str_ex3 : py_decimal_str 1050000 9 = "0.00105".
Proof. reflexivity. Qed.
Example py_lower_ex : py_lower "DeLeTe FROM t" = "delete from t".
Proof. reflexivity. Qed.
Example japanese_ok : str_contains "GB" "約 2.00 GB" = true.
Proof. reflexivity. Qed.

(** A dict literal [{k1: v1, k2: v2, ...}] with distinct keys. *)
Definition dict_lit (kvs : list (string * PyVal)) : dict := list_to_map kvs.

(** [tool.name] of the ADK tool object handed to a callback. *)
Record BaseTool := mkTool { name : string }.

(** [client.query(query, project=project_id, job_config=dry_run_config)
    .total_bytes_processed]: the external dry-run, which returns the byte
    estimate or raises. *)
Definition DryRun := PyVal -> PyVal -> outcome Z.

(* ------------------------------------------------------------------ *)
(** ** Configuration *)

(** [src/bq-agent-app/config.py]: the dataclass and its defaults; the module
    instantiates it with no arguments ([config = BigQueryAgentConfiguration()]). *)
Record BigQueryAgentConfiguration := {
  model : string;
  project_id : string;
  dataset_id : string;
  dry_run_threshold_bytes : Z
}.

Definition config : BigQueryAgentConfiguration := {|
  model := "gemini-2.5-flash";
  project_id := "your-project-id";
  dataset_id := "your-dataset-id";
  dry_run_threshold_bytes := 1000000000
|}.

(** Modelled from the spec: the configuration module of the HITL app
    ([bq-hitl-agent-app/config.py], imported as [.config] but not present),
    of which [check_query_cost] reads [approval_threshold_bytes].  The spec
    gives it as read from a configuration object with hardcoded defaults,
    the default threshold being 1×10⁹ bytes. *)
Record HitlConfiguration := {
  approval_threshold_bytes : Z
}.

Definition hitl_config : HitlConfiguration := {|
  approval_threshold_bytes := 1000000000
|}.

(* ------------------------------------------------------------------ *)
(** ** [check_query_cost] (bq-hitl-agent-app/agent.py) *)

Definition msg_missing : string := "Query or Project ID is missing".

Definition msg_approval_required (total : Z) : string :=
  "このクエリは約 " ++ py_fixed2 total 1000000000 ++ " GB (" ++
  py_int_commas total ++
  " bytes) のデータをスキャンします。実行するには承認が必要です。".

Definition msg_approved (total : Z) : string :=
  "このクエリは約 " ++ py_fixed2 total 1000000 ++ " MB (" ++
  py_int_commas total ++
  " bytes) のデータをスキャンします。承認不要で実行できます。".

Definition msg_dry_run_error (e : exn) : string :=
  let 'Exn m := e in "クエリのドライラン中にエラーが発生しました: " ++ m.

Definition check_query_cost (cfg : HitlConfiguration) (dry : DryRun)
    (query project_id : PyVal) : M dict :=
  if negb (py_truthy query) || negb (py_truthy project_id) then
    ret (dict_lit [("status", VStr "ERROR"); ("message", VStr msg_missing)])
  else
    try_except
      (total_bytes_processed <- lift (dry query project_id) ;;
       if total_bytes_processed >=? approval_threshold_bytes cfg then
         state_set "pending_query" query ;;;
         state_set "pending_query_bytes" (VInt total_bytes_processed) ;;;
         state_set "pending_query_project_id" project_id ;;;
         ret (dict_lit [("status", VStr "APPROVAL_REQUIRED");
                        ("total_bytes_processed", VInt total_bytes_processed);
                        ("message", VStr (msg_approval_required total_bytes_processed))])
       else
         ret (dict_lit [("status", VStr "APPROVED");
                        ("total_bytes_processed", VInt total_bytes_processed);
                        ("message", VStr (msg_approved total_bytes_processed))]))
      (fun e =>
         ret (dict_lit [("status", VStr "ERROR");
                        ("message", VStr (msg_dry_run_error e))])).

(* ------------------------------------------------------------------ *)
(** ** Callbacks of the plain agent (bq_agent_app/agent.py) *)

(** [v == s] for a Python value and a string literal. *)
Definition py_eq_str (v : PyVal) (s : string) : bool :=
  match v with VStr t => String.eqb t s | _ => false end.

(** [v + 1]; [bool] is an [int] subclass, anything else is a TypeError. *)
Definition py_add_one (v : PyVal) : outcome PyVal :=
  match v with
  | VInt n => Ret (VInt (n + 1))
  | VBool b => Ret (VInt (Z.b2z b + 1))
  | _ => Raise (Exn "TypeError: unsupported operand type(s) for +")
  end.

Definition update_bigquery_api_count (tool : BaseTool) (args : dict)
    (tool_response : dict) : M unit :=
  if existsb (String.eqb (name tool)) ["execute_sql"] then
    if py_eq_str (dict_get tool_response "status" VNone) "ERROR" then
      failure_count <- state_get "bigquery_api_failure" (VInt 0) ;;
      v <- lift (py_add_one failure_count) ;;
      state_set "bigquery_api_failure" v
    else ret tt
  else ret tt.

Definition delete_refusal : dict :=
  dict_lit [("result",
             VStr "Tool execution was blocked due to forbidden delete statement!")].

Definition validate_sql_callback (tool : BaseTool) (args : dict) : M (option dict) :=
  if String.eqb (name tool) "execute_sql" then
    match dict_get args "query" (VStr "") with
    | VStr q =>
        if str_contains "delete" (py_lower q) then ret (Some delete_refusal)
        else ret None
    | _ => raise (Exn "AttributeError: object has no attribute 'lower'")
    end
  else ret None.

Definition dry_run_refusal (total threshold : Z) : dict :=
  dict_lit [("result",
             VStr ("Large size SQL query is forbidden. The query size by dry run is " ++
                   py_int_str total ++ " bytes > " ++
                   py_decimal_str threshold 9 ++ " GB"))].

Definition sql_query_dryrun_callback (cfg : BigQueryAgentConfiguration)
    (dry : DryRun) (tool : BaseTool) (args : dict) : M (option dict) :=
  if String.eqb (name tool) "execute_sql" && dict_has args "query"
     && dict_has args "project_id" then
    total_bytes_processed <-
      lift (dry (dict_get args "query" VNone) (dict_get args "project_id" VNone)) ;;
    if total_bytes_processed >? dry_run_threshold_bytes cfg then
      ret (Some (dry_run_refusal total_bytes_processed (dry_run_threshold_bytes cfg)))
    else ret None
  else ret None.

(** The agent runtime's handling of a list of before-tool callbacks: they
    run in order and the first truthy (non-empty dict) response replaces the
    tool call; when none answers, the tool runs ([None]). *)
Definition BeforeToolCallback := BaseTool -> dict -> M (option dict).

Definition py_resp_truthy (r : option dict) : bool :=
  match r with Some d => negb (Nat.eqb (size d) 0) | None => false end.

Fixpoint run_before_tool_callbacks (cbs : list BeforeToolCallback)
    (tool : BaseTool) (args : dict) : M (option dict) :=
  match cbs with
  | [] => ret None
  | cb :: rest =>
      r <- cb tool args ;;
      if py_resp_truthy r then ret r else run_before_tool_callbacks rest tool args
  end.

(** [root_agent]'s [before_tool_callback=[validate_sql_callback,
    sql_query_dryrun_callback]]. *)
Definition root_agent_before_tool_callback (dry : DryRun) : list BeforeToolCallback :=
  [validate_sql_callback; sql_query_dryrun_callback config dry].

(* ------------------------------------------------------------------ *)
(** ** Session-state writes of the HITL app *)

(** The [output_key] of [query_plan_generator] and of
    [interactive_planner_agent]: the runtime stores the agent's final text
    under it. *)
Definition hitl_output_keys : list string := ["query_plan"; "query_plan"].

(** One state-changing step of the HITL app: a [check_query_cost] call (the
    only tool of the app that writes state; its writes reach the session
    through [AgentTool]), or an agent's text stored under its output key. *)
Inductive hitl_step (cfg : HitlConfiguration) : dict -> dict -> Prop :=
| hitl_step_check_query_cost (dry : DryRun) (q p : PyVal) (s : dict) :
    hitl_step cfg s (snd (check_query_cost cfg dry q p s))
| hitl_step_output_key (k t : string) (s : dict) :
    k ∈ hitl_output_keys -> hitl_step cfg s (<[k := VStr t]> s).

Definition hitl_reachable (cfg : HitlConfiguration) : dict -> dict -> Prop :=
  rtc (hitl_step cfg).

(** The [status] entry of a returned dict. *)
Definition result_status (o : outcome dict) : option PyVal :=
  match o with Ret r => r !! "status" | Raise _ => None end.

(** The counter as the callback reads it: [state.get("bigquery_api_failure", 0)]
    when that is an int. *)
Definition counter_value (s : dict) : option Z :=
  match s !! "bigquery_api_failure" with
  | None => Some 0
  | Some (VInt n) => Some n
  | Some _ => None
  end.

(* ------------------------------------------------------------------ *)
(** ** More of the code: sequences of calls *)

(** The after-tool callback run on a sequence of tool calls, each given by
    its tool, arguments and response. *)
Fixpoint run_after_tool_callbacks (calls : list (BaseTool * dict * dict)) : M unit :=
  match calls with
  | [] => ret tt
  | (tool, args, resp) :: rest =>
      update_bigquery_api_count tool args resp ;;; run_after_tool_callbacks rest
  end.

(** The calls the after-tool callback counts as failures. *)
Definition is_counted_failure (call : BaseTool * dict * dict) : bool :=
  let '(tool, _, resp) := call in
  String.eqb (name tool) "execute_sql" &&
  py_eq_str (dict_get resp "status" VNone) "ERROR".

(** A sequence of [check_query_cost] calls, each on the state the previous
    one left; only the state is kept. *)
Fixpoint run_checks (cfg : HitlConfiguration) (dry : DryRun)
    (calls : list (PyVal * PyVal)) (s : dict) : dict :=
  match calls with
  | [] => s
  | (q, p) :: rest => run_checks cfg dry rest (snd (check_query_cost cfg dry q p s))
  end.

(** The estimate of a call that takes the [APPROVAL_REQUIRED] branch. *)
Definition requires_approval (cfg : HitlConfiguration) (dry : DryRun)
    (q p : PyVal) : option Z :=
  if py_truthy q && py_truthy p then
    match dry q p with
    | Ret b => if b >=? approval_threshold_bytes cfg then Some b else None
    | Raise _ => None
    end
  else None.

(** The last call of a sequence that takes the [APPROVAL_REQUIRED] branch. *)
Fixpoint last_requiring (cfg : HitlConfiguration) (dry : DryRun)
    (calls : list (PyVal * PyVal)) : option (PyVal * PyVal * Z) :=
  match calls with
  | [] => None
  | (q, p) :: rest =>
      match last_requiring cfg dry rest with
      | Some r => Some r
      | None => match requires_approval cfg dry q p with
                | Some b => Some (q, p, b)
                | None => None
                end
      end
  end.

(** The separator test of [remove_commas]. *)
Definition not_comma (c : ascii) : bool := negb (Ascii.eqb c ","%char).

(** The text with every [','] removed. *)
Definition remove_commas (s : string) : string :=
  string_of_list_ascii
    (List.filter (fun c => negb (Ascii.eqb c ","%char)) (list_ascii_of_string s)).

(* ------------------------------------------------------------------ *)
(** ** Module-level environment setup of [config.py] *)

Abbreviation env_map := (gmap string string).

(** [os.environ.setdefault(k, v)]: an existing entry is kept; otherwise [v]
    is stored, and [os.environ] refuses a value that is not a str. *)
Definition environ_setdefault (k : string) (v : option string) (env : env_map)
    : outcome env_map :=
  match env !! k with
  | Some _ => Ret env
  | None =>
      match v with
      | Some x => Ret (<[k := x]> env)
      | None => Raise (Exn "TypeError: str expected, not NoneType")
      end
  end.

Definition obind {A B} (o : outcome A) (k : A -> outcome B) : outcome B :=
  match o with Ret a => k a | Raise e => Raise e end.

(** Lines 25-28 of [config.py]: [_, project_id = google.auth.default()]
    (an external call, given as its outcome; the project may be [None])
    followed by the three [setdefault]s. *)
Definition config_module_init (adc_project : outcome (option string))
    (env : env_map) : outcome env_map :=
  obind adc_project (fun project_id =>
  obind (environ_setdefault "GOOGLE_CLOUD_PROJECT" project_id env) (fun env1 =>
  obind (environ_setdefault "GOOGLE_CLOUD_LOCATION" (Some "global") env1) (fun env2 =>
  environ_setdefault "GOOGLE_GENAI_USE_VERTEXAI" (Some "True") env2))).

(** The value [config_module_init] supplies for a key the environment lacks. *)
Definition config_env_default (project_id : option string) (k : string) : option string :=
  if String.eqb k "GOOGLE_CLOUD_PROJECT" then project_id
  else if String.eqb k "GOOGLE_CLOUD_LOCATION" then Some "global"
  else if String.eqb k "GOOGLE_GENAI_USE_VERTEXAI" then Some "True"
  else None.

(* ------------------------------------------------------------------ *)
(** ** The event filter of [test_run] (deploy_bq_agent.py) *)

(** The streamed events are JSON-like Python values; dicts are association
    lists with string keys. *)
#[local] Set Warnings "-register-all".
Inductive Json :=
| JNone
| JBool (b : bool)
| JInt (z : Z)
| JStr (s : string)
| JList (l : list Json)
| JDict (kvs : list (string * Json)).

Fixpoint assoc_lookup (k : string) (kvs : list (string * Json)) : option Json :=
  match kvs with
  | [] => None
  | (k', v) :: rest => if String.eqb k k' then Some v else assoc_lookup k rest
  end.

Definition json_truthy (j : Json) : bool :=
  match j with
  | JNone => false
  | JBool b => b
  | JInt z => negb (z =? 0)
  | JStr s => negb (String.eqb s "")
  | JList l => negb (Nat.eqb (length l) 0)
  | JDict kvs => negb (Nat.eqb (length kvs) 0)
  end.

(** [j.get(k, dflt)]: only dicts have [get]. *)
Definition json_get (j : Json) (k : string) (dflt : Json) : outcome Json :=
  match j with
  | JDict kvs => Ret (match assoc_lookup k kvs with Some v => v | None => dflt end)
  | _ => Raise (Exn "AttributeError: object has no attribute 'get'")
  end.

(** [j[0]] *)
Definition json_index0 (j : Json) : outcome Json :=
  match j with
  | JList (x :: _) => Ret x
  | JList [] => Raise (Exn "IndexError: list index out of range")
  | JStr (String c _) => Ret (JStr (String c EmptyString))
  | JStr EmptyString => Raise (Exn "IndexError: string index out of range")
  | JDict _ => Raise (Exn "KeyError: 0")
  | _ => Raise (Exn "TypeError: object is not subscriptable")
  end.

(** [e.get("content", {}).get("parts", [{}])[0].get(field)] *)
Definition first_part_field (e : Json) (field : string) : outcome Json :=
  obind (json_get e "content" (JDict [])) (fun c =>
  obind (json_get c "parts" (JList [JDict []])) (fun parts =>
  obind (json_index0 parts) (fun p =>
  json_get p field JNone))).

(** The condition of the comprehension; [and] does not evaluate its second
    operand when the first is falsy. *)
Definition is_final_text (e : Json) : outcome bool :=
  obind (first_part_field e "text") (fun t =>
  if json_truthy t then
    obind (first_part_field e "function_call") (fun f => Ret (negb (json_truthy f)))
  else Ret false).

(** [final_text_responses = [e for e in events if ...]]: events are tested
    in order, and the first exception ends the comprehension. *)
Fixpoint final_text_responses (events : list Json) : outcome (list Json) :=
  match events with
  | [] => Ret []
  | e :: rest =>
      obind (is_final_text e) (fun keep =>
      obind (final_text_responses rest) (fun l =>
      Ret (if keep then e :: l else l)))
  end.

(** The events the comprehension keeps when its condition does not raise. *)
Definition keep_event (e : Json) : bool :=
  match is_final_text e with Ret b => b | Raise _ => false end.

(* ------------------------------------------------------------------ *)
(** ** Sanity checks on concrete inputs *)

Definition dry_const (b : Z) : DryRun := fun _ _ => Ret b.
Definition dry_fail : DryRun := fun _ _ => Raise (Exn "Not found: Table").

Example check_query_cost_ex_high :
  result_status (fst (check_query_cost hitl_config (dry_const 2000000000)
                        (VStr "SELECT *") (VStr "p") ∅))
  = Some (VStr "APPROVAL_REQUIRED").
Proof. reflexivity. Qed.

Example check_query_cost_ex_low :
  snd (check_query_cost hitl_config (dry_const 5) (VStr "SELECT 1") (VStr "p") ∅) = ∅.
Proof. reflexivity. Qed.

Example check_query_cost_ex_fail :
  result_status (fst (check_query_cost hitl_config dry_fail
                        (VStr "SELECT 1") (VStr "p") ∅))
  = Some (VStr "ERROR").
Proof. reflexivity. Qed.

(* ------------------------------------------------------------------ *)
(** ** Unfolding lemmas *)

Section CheckQueryCost.
Variable cfg : HitlConfiguration.
Variable dry : DryRun.

Lemma check_query_cost_falsy (q p : PyVal) (s : dict) :
  py_truthy q = false \/ py_truthy p = false ->
  check_query_cost cfg dry q p s =
  (Ret (dict_lit [("status", VStr "ERROR"); ("message", VStr msg_missing)]), s).
Proof.
  intros [H | H]; unfold check_query_cost; rewrite H; cbn [negb orb];
    [reflexivity | now destruct (py_truthy q)].
Qed.

Lemma check_query_cost_dry_ok (q p : PyVal) (b : Z) (s : dict) :
  py_truthy q = true -> py_truthy p = true -> dry q p = Ret b ->
  check_query_cost cfg dry q p s =
  if b >=? approval_threshold_bytes cfg then
    (Ret (dict_lit [("status", VStr "APPROVAL_REQUIRED");
                    ("total_bytes_processed", VInt b);
                    ("message", VStr (msg_approval_required b))]),
     <["pending_query_project_id" := p]>
       (<["pending_query_bytes" := VInt b]> (<["pending_query" := q]> s)))
  else
    (Ret (dict_lit [("status", VStr "APPROVED");
                    ("total_bytes_processed", VInt b);
                    ("message", VStr (msg_approved b))]), s).
Proof.
  intros Hq Hp Hd. unfold check_query_cost. rewrite Hq, Hp. cbn [negb orb].
  unfold try_except, bind, lift. rewrite Hd.
  destruct (b >=? approval_threshold_bytes cfg); reflexivity.
Qed.

Lemma check_query_cost_dry_raise (q p : PyVal) (e : exn) (s : dict) :
  py_truthy q = true -> py_truthy p = true -> dry q p = Raise e ->
  check_query_cost cfg dry q p s =
  (Ret (dict_lit [("status", VStr "ERROR"); ("message", VStr (msg_dry_run_error e))]), s).
Proof.
  intros Hq Hp Hd. unfold check_query_cost. rewrite Hq, Hp. cbn [negb orb].
  unfold try_except, bind, lift. rewrite Hd. reflexivity.
Qed.

(** [check_query_cost] writes nothing but the three [pending_*] keys. *)
Lemma check_query_cost_state_other (q p : PyVal) (s : dict) (k : string) :
  k <> "pending_query" -> k <> "pending_query_bytes" ->
  k <> "pending_query_project_id" ->
  snd (check_query_cost cfg dry q p s) !! k = s !! k.
Proof.
  intros H1 H2 H3.
  destruct (py_truthy q) eqn:Hq; [destruct (py_truthy p) eqn:Hp |].
  - destruct (dry q p) as [b | e] eqn:Hd.
    + rewrite (check_query_cost_dry_ok q p b s Hq Hp Hd).
      destruct (b >=? approval_threshold_bytes cfg); cbn [snd]; [|reflexivity].
      rewrite !lookup_insert_ne by congruence. reflexivity.
    + now rewrite (check_query_cost_dry_raise q p e s Hq Hp Hd).
  - now rewrite check_query_cost_falsy by auto.
  - now rewrite check_query_cost_falsy by auto.
Qed.

End CheckQueryCost.

Lemma py_truthy_str (q : string) : q <> "" -> py_truthy (VStr q) = true.
Proof.
  intros H. cbn. destruct (String.eqb_spec q ""); [contradiction | reflexivity].
Qed.

(* ------------------------------------------------------------------ *)
(** ** Claims about [check_query_cost] *)

(** C1: with a non-empty query and project id and a dry-run estimate [b],
    [check_query_cost] returns [APPROVAL_REQUIRED] and writes
    [pending_query], [pending_query_bytes] and [pending_query_project_id]
    when [b] is at least the configured threshold, and returns [APPROVED]
    leaving the session state as it was when [b] is below it. *)
Theorem check_query_cost_threshold (cfg : HitlConfiguration) (dry : DryRun)
    (q p : string) (b : Z) (s : dict) :
  q <> "" -> p <> "" -> dry (VStr q) (VStr p) = Ret b ->
  (b >= approval_threshold_bytes cfg ->
   exists r, check_query_cost cfg dry (VStr q) (VStr p) s =
             (Ret r, <["pending_query_project_id" := VStr p]>
                       (<["pending_query_bytes" := VInt b]>
                          (<["pending_query" := VStr q]> s)))
             /\ r !! "status" = Some (VStr "APPROVAL_REQUIRED")) /\
  (b < approval_threshold_bytes cfg ->
   exists r, check_query_cost cfg dry (VStr q) (VStr p) s = (Ret r, s)
             /\ r !! "status" = Some (VStr "APPROVED")).
Proof.
  intros Hq Hp Hd.
  rewrite (check_query_cost_dry_ok cfg dry _ _ b s (py_truthy_str q Hq)
             (py_truthy_str p Hp) Hd).
  split; intros Hb.
  - assert (E : (b >=? approval_threshold_bytes cfg) = true) by lia.
    rewrite E. eexists. split; [reflexivity | reflexivity].
  - assert (E : (b >=? approval_threshold_bytes cfg) = false) by lia.
    rewrite E. eexists. split; [reflexivity | reflexivity].
Qed.

Lemma check_query_cost_threshold_witness :
  (exists r, check_query_cost hitl_config (dry_const 3000000000)
               (VStr "SELECT *") (VStr "p") ∅ =
             (Ret r, <["pending_query_project_id" := VStr "p"]>
                       (<["pending_query_bytes" := VInt 3000000000]>
                          (<["pending_query" := VStr "SELECT *"]> ∅)))
             /\ r !! "status" = Some (VStr "APPROVAL_REQUIRED")) /\
  (exists r, check_query_cost hitl_config (dry_const 7)
               (VStr "SELECT 1") (VStr "p") ∅ = (Ret r, ∅)
             /\ r !! "status" = Some (VStr "APPROVED")).
Proof.
  split.
  - apply (proj1 (check_query_cost_threshold hitl_config (dry_const 3000000000)
                    "SELECT *" "p" 3000000000 ∅ ltac:(discriminate)
                    ltac:(discriminate) eq_refl)).
    cbn. lia.
  - apply (proj2 (check_query_cost_threshold hitl_config (dry_const 7)
                    "SELECT 1" "p" 7 ∅ ltac:(discriminate)
                    ltac:(discriminate) eq_refl)).
    cbn. lia.
Defined.

(** C3: when the query or the project id is missing or empty, or the
    dry-run raises, [check_query_cost] returns (it does not raise) a dict
    with status [ERROR] and a message, and the session state is unchanged. *)
Theorem check_query_cost_error_no_state (cfg : HitlConfiguration) (dry : DryRun)
    (q p : PyVal) (s : dict) :
  (py_truthy q = false \/ py_truthy p = false \/ exists e, dry q p = Raise e) ->
  exists r m, check_query_cost cfg dry q p s = (Ret r, s)
              /\ r !! "status" = Some (VStr "ERROR")
              /\ r !! "message" = Some (VStr m).
Proof.
  intros H.
  destruct (py_truthy q) eqn:Hq; [destruct (py_truthy p) eqn:Hp |].
  - destruct H as [H | [H | [e He]]]; try discriminate.
    rewrite (check_query_cost_dry_raise cfg dry q p e s Hq Hp He).
    do 2 eexists. split; [reflexivity | split; reflexivity].
  - rewrite check_query_cost_falsy by auto.
    do 2 eexists. split; [reflexivity | split; reflexivity].
  - rewrite check_query_cost_falsy by auto.
    do 2 eexists. split; [reflexivity | split; reflexivity].
Qed.

Lemma check_query_cost_error_no_state_witness :
  (py_truthy VNone = false \/ py_truthy (VStr "p") = false \/
   exists e, dry_fail VNone (VStr "p") = Raise e) /\
  exists r m, check_query_cost hitl_config dry_fail VNone (VStr "p") ∅ = (Ret r, ∅)
              /\ r !! "status" = Some (VStr "ERROR")
              /\ r !! "message" = Some (VStr m).
Proof.
  split; [left; reflexivity |].
  apply check_query_cost_error_no_state. left. reflexivity.
Defined.

(** C5: with the threshold at 1,000,000,000 bytes, an estimate of
    2,000,000,000 bytes gives [APPROVAL_REQUIRED] with a message containing
    "2.00 GB", and an estimate of 500,000,000 bytes gives [APPROVED] with a
    message containing "500.00 MB". *)
Theorem check_query_cost_examples (cfg : HitlConfiguration) (dry : DryRun)
    (q p : string) (s : dict) :
  approval_threshold_bytes cfg = 1000000000 -> q <> "" -> p <> "" ->
  (dry (VStr q) (VStr p) = Ret 2000000000 ->
   exists r s' m, check_query_cost cfg dry (VStr q) (VStr p) s = (Ret r, s')
                  /\ r !! "status" = Some (VStr "APPROVAL_REQUIRED")
                  /\ r !! "message" = Some (VStr m)
                  /\ str_contains "2.00 GB" m = true) /\
  (dry (VStr q) (VStr p) = Ret 500000000 ->
   exists r s' m, check_query_cost cfg dry (VStr q) (VStr p) s = (Ret r, s')
                  /\ r !! "status" = Some (VStr "APPROVED")
                  /\ r !! "message" = Some (VStr m)
                  /\ str_contains "500.00 MB" m = true).
Proof.
  intros Ht Hq Hp. split; intros Hd.
  - rewrite (check_query_cost_dry_ok cfg dry _ _ _ s (py_truthy_str q Hq)
               (py_truthy_str p Hp) Hd), Ht.
    cbn [Z.geb Z.compare Pos.compare Pos.compare_cont].
    do 3 eexists. split; [reflexivity |].
    split; [reflexivity | split; [reflexivity | vm_compute; reflexivity]].
  - rewrite (check_query_cost_dry_ok cfg dry _ _ _ s (py_truthy_str q Hq)
               (py_truthy_str p Hp) Hd), Ht.
    cbn [Z.geb Z.compare Pos.compare Pos.compare_cont].
    do 3 eexists. split; [reflexivity |].
    split; [reflexivity | split; [reflexivity | vm_compute; reflexivity]].
Qed.

Lemma check_query_cost_examples_witness :
  (exists r s' m, check_query_cost hitl_config (dry_const 2000000000)
                    (VStr "SELECT *") (VStr "p") ∅ = (Ret r, s')
                  /\ r !! "status" = Some (VStr "APPROVAL_REQUIRED")
                  /\ r !! "message" = Some (VStr m)
                  /\ str_contains "2.00 GB" m = true) /\
  (exists r s' m, check_query_cost hitl_config (dry_const 500000000)
                    (VStr "SELECT *") (VStr "p") ∅ = (Ret r, s')
                  /\ r !! "status" = Some (VStr "APPROVED")
                  /\ r !! "message" = Some (VStr m)
                  /\ str_contains "500.00 MB" m = true).
Proof.
  split.
  - apply (proj1 (check_query_cost_examples hitl_config (dry_const 2000000000)
                    "SELECT *" "p" ∅ eq_refl ltac:(discriminate) ltac:(discriminate))).
    reflexivity.
  - apply (proj2 (check_query_cost_examples hitl_config (dry_const 500000000)
                    "SELECT *" "p" ∅ eq_refl ltac:(discriminate) ltac:(discriminate))).
    reflexivity.
Defined.

(** C6 (as stated, refuted): a missing query gives an [ERROR] result that
    has no [total_bytes_processed] entry. *)
Lemma check_query_cost_error_without_bytes :
  exists r, fst (check_query_cost hitl_config (dry_const 0) (VStr "") (VStr "p") ∅) = Ret r
            /\ r !! "status" = Some (VStr "ERROR")
            /\ r !! "total_bytes_processed" = None.
Proof. eexists. split; [reflexivity | split; reflexivity]. Qed.

(** C6 (as amended): [check_query_cost] always returns a dict (it never
    raises) and the dict is one of exactly two shapes: a status of [APPROVED]
    or [APPROVAL_REQUIRED] with the integer [total_bytes_processed] and a
    string message, or a status of [ERROR] with a string message and no
    other entry. *)
Theorem check_query_cost_result_shape (cfg : HitlConfiguration) (dry : DryRun)
    (q p : PyVal) (s : dict) :
  exists r s' m, check_query_cost cfg dry q p s = (Ret r, s')
    /\ ((exists st b, (st = "APPROVED" \/ st = "APPROVAL_REQUIRED")
          /\ r = dict_lit [("status", VStr st); ("total_bytes_processed", VInt b);
                           ("message", VStr m)])
        \/ r = dict_lit [("status", VStr "ERROR"); ("message", VStr m)]).
Proof.
  destruct (py_truthy q) eqn:Hq; [destruct (py_truthy p) eqn:Hp |].
  - destruct (dry q p) as [b | e] eqn:Hd.
    + rewrite (check_query_cost_dry_ok cfg dry q p b s Hq Hp Hd).
      destruct (b >=? approval_threshold_bytes cfg);
        do 3 eexists; (split; [reflexivity |]); left.
      * exists "APPROVAL_REQUIRED", b. split; [right | ]; reflexivity.
      * exists "APPROVED", b. split; [left | ]; reflexivity.
    + rewrite (check_query_cost_dry_raise cfg dry q p e s Hq Hp Hd).
      do 3 eexists; split; [reflexivity |]. right; reflexivity.
  - rewrite check_query_cost_falsy by auto.
    do 3 eexists; split; [reflexivity |]. right; reflexivity.
  - rewrite check_query_cost_falsy by auto.
    do 3 eexists; split; [reflexivity |]. right; reflexivity.
Qed.

(* ------------------------------------------------------------------ *)
(** ** Claims about the callbacks of the plain agent *)

(** C2: when [execute_sql] is called with a query whose lowercase form
    contains "delete", the before-tool callbacks of [root_agent] answer with
    the fixed refusal, whatever the dry-run would report (or raise): the
    keyword check comes first and the dry-run callback is never reached. *)
Theorem root_agent_blocks_delete (dry : DryRun) (tool : BaseTool) (args : dict)
    (q : string) (s : dict) :
  name tool = "execute_sql" -> args !! "query" = Some (VStr q) ->
  str_contains "delete" (py_lower q) = true ->
  run_before_tool_callbacks (root_agent_before_tool_callback dry) tool args s
  = (Ret (Some delete_refusal), s).
Proof.
  intros Hn Hq Hd.
  unfold root_agent_before_tool_callback. cbn [run_before_tool_callbacks].
  unfold bind, validate_sql_callback, dict_get. rewrite Hn, Hq, Hd.
  reflexivity.
Qed.

Lemma root_agent_blocks_delete_witness :
  run_before_tool_callbacks (root_agent_before_tool_callback dry_fail)
    (mkTool "execute_sql")
    (dict_lit [("query", VStr "DELETE FROM t WHERE x = 1"); ("project_id", VStr "p")]) ∅
  = (Ret (Some delete_refusal), ∅).
Proof.
  apply (root_agent_blocks_delete _ _ _ "DELETE FROM t WHERE x = 1"); reflexivity.
Defined.

(** C7: with an integer counter (or none yet, read as 0), the after-tool
    callback stores the counter plus one exactly when the tool is
    [execute_sql] and its response has status "ERROR"; otherwise the
    session state is left as it was.  It returns [None] in both cases. *)
Theorem update_bigquery_api_count_spec (tool : BaseTool) (args resp s : dict) (n : Z) :
  counter_value s = Some n ->
  update_bigquery_api_count tool args resp s =
  (Ret tt,
   if String.eqb (name tool) "execute_sql" &&
      py_eq_str (dict_get resp "status" VNone) "ERROR"
   then <["bigquery_api_failure" := VInt (n + 1)]> s
   else s).
Proof.
  intros Hc. unfold update_bigquery_api_count. cbn [existsb].
  rewrite orb_false_r.
  destruct (String.eqb (name tool) "execute_sql"); cbn [andb]; [| reflexivity].
  destruct (py_eq_str (dict_get resp "status" VNone) "ERROR"); [| reflexivity].
  unfold bind, state_get, lift, state_set, dict_get.
  unfold counter_value in Hc.
  destruct (s !! "bigquery_api_failure") as [[] |];
    try discriminate; injection Hc as <-; reflexivity.
Qed.

Lemma update_bigquery_api_count_spec_witness :
  update_bigquery_api_count (mkTool "execute_sql") ∅
    (dict_lit [("status", VStr "ERROR")])
    (dict_lit [("bigquery_api_failure", VInt 4)])
  = (Ret tt, dict_lit [("bigquery_api_failure", VInt 5)]).
Proof.
  rewrite (update_bigquery_api_count_spec _ _ _ _ 4) by reflexivity.
  reflexivity.
Defined.

Section DryRunCallback.
Variable cfg : BigQueryAgentConfiguration.
Variable dry : DryRun.

Lemma sql_query_dryrun_callback_eq (tool : BaseTool) (args s : dict) (b : Z) :
  name tool = "execute_sql" -> dict_has args "query" = true ->
  dict_has args "project_id" = true ->
  dry (dict_get args "query" VNone) (dict_get args "project_id" VNone) = Ret b ->
  sql_query_dryrun_callback cfg dry tool args s =
  (Ret (if b >? dry_run_threshold_bytes cfg
        then Some (dry_run_refusal b (dry_run_threshold_bytes cfg)) else None), s).
Proof.
  intros Hn Hq Hp Hd. unfold sql_query_dryrun_callback.
  rewrite Hn, Hq, Hp. cbn [String.eqb andb].
  unfold bind, lift. rewrite Hd.
  destruct (b >? dry_run_threshold_bytes cfg); reflexivity.
Qed.

Lemma sql_query_dryrun_callback_skip (tool : BaseTool) (args s : dict) :
  String.eqb (name tool) "execute_sql" && dict_has args "query"
    && dict_has args "project_id" = false ->
  sql_query_dryrun_callback cfg dry tool args s = (Ret None, s).
Proof.
  intros H. unfold sql_query_dryrun_callback. rewrite H. reflexivity.
Qed.

End DryRunCallback.

(** C8: the HITL threshold ([approval_threshold_bytes], modelled from the
    spec) and the plain agent's threshold ([dry_run_threshold_bytes] of
    [BigQueryAgentConfiguration()]) both default to 1,000,000,000 bytes, and
    the cost checks compare against that value: [check_query_cost] asks for
    approval exactly when the estimate is at least 10^9, the dry-run callback
    refuses exactly when it is above 10^9. *)
Theorem cost_check_default_threshold (dry : DryRun) (q p : string) (b : Z) (s : dict) :
  q <> "" -> p <> "" -> dry (VStr q) (VStr p) = Ret b ->
  approval_threshold_bytes hitl_config = 1000000000 /\
  dry_run_threshold_bytes config = 1000000000 /\
  result_status (fst (check_query_cost hitl_config dry (VStr q) (VStr p) s)) =
    Some (VStr (if b >=? 1000000000 then "APPROVAL_REQUIRED" else "APPROVED")) /\
  fst (sql_query_dryrun_callback config dry (mkTool "execute_sql")
         (dict_lit [("query", VStr q); ("project_id", VStr p)]) s) =
    Ret (if b >? 1000000000 then Some (dry_run_refusal b 1000000000) else None).
Proof.
  intros Hq Hp Hd.
  split; [reflexivity | split; [reflexivity |]]. split.
  - rewrite (check_query_cost_dry_ok hitl_config dry _ _ b s (py_truthy_str q Hq)
               (py_truthy_str p Hp) Hd).
    cbn [approval_threshold_bytes hitl_config].
    destruct (b >=? 1000000000); reflexivity.
  - rewrite (sql_query_dryrun_callback_eq config dry _ _ s b); try reflexivity.
    exact Hd.
Qed.

Lemma cost_check_default_threshold_witness :
  approval_threshold_bytes hitl_config = 1000000000 /\
  dry_run_threshold_bytes config = 1000000000 /\
  result_status (fst (check_query_cost hitl_config (dry_const 1000000000)
                        (VStr "SELECT *") (VStr "p") ∅)) =
    Some (VStr "APPROVAL_REQUIRED") /\
  fst (sql_query_dryrun_callback config (dry_const 1000000000) (mkTool "execute_sql")
         (dict_lit [("query", VStr "SELECT *"); ("project_id", VStr "p")]) ∅) =
    Ret None.
Proof.
  apply (cost_check_default_threshold (dry_const 1000000000) "SELECT *" "p" 1000000000 ∅);
    [discriminate | discriminate | reflexivity].
Defined.

(** C9: the dry-run callback refuses only estimates strictly above the
    threshold; an estimate equal to the threshold is let through ([None]). *)
Theorem sql_query_dryrun_callback_at_threshold (cfg : BigQueryAgentConfiguration)
    (dry : DryRun) (tool : BaseTool) (args s : dict) (b : Z) :
  name tool = "execute_sql" -> dict_has args "query" = true ->
  dict_has args "project_id" = true ->
  dry (dict_get args "query" VNone) (dict_get args "project_id" VNone) = Ret b ->
  (b = dry_run_threshold_bytes cfg ->
   sql_query_dryrun_callback cfg dry tool args s = (Ret None, s)) /\
  (sql_query_dryrun_callback cfg dry tool args s <> (Ret None, s) <->
   b > dry_run_threshold_bytes cfg).
Proof.
  intros Hn Hq Hp Hd.
  rewrite (sql_query_dryrun_callback_eq cfg dry tool args s b Hn Hq Hp Hd).
  split.
  - intros ->. rewrite Z.gtb_ltb, Z.ltb_irrefl. reflexivity.
  - destruct (b >? dry_run_threshold_bytes cfg) eqn:E; split; intros H.
    + lia.
    + discriminate.
    + contradiction.
    + lia.
Qed.

Lemma sql_query_dryrun_callback_at_threshold_witness :
  sql_query_dryrun_callback config (dry_const 1000000000) (mkTool "execute_sql")
    (dict_lit [("query", VStr "SELECT *"); ("project_id", VStr "p")]) ∅
  = (Ret None, ∅).
Proof.
  apply (proj1 (sql_query_dryrun_callback_at_threshold config (dry_const 1000000000)
                  (mkTool "execute_sql")
                  (dict_lit [("query", VStr "SELECT *"); ("project_id", VStr "p")]) ∅
                  1000000000 eq_refl eq_refl eq_refl eq_refl)).
  reflexivity.
Defined.

(** C10: when the [execute_sql] arguments lack ["query"] or ["project_id"],
    the dry-run callback returns [None] without calling the dry-run: the
    result is the same for every dry-run oracle, also one that always
    raises, and the session state is untouched. *)
Theorem sql_query_dryrun_callback_missing_args (cfg : BigQueryAgentConfiguration)
    (dry : DryRun) (tool : BaseTool) (args s : dict) :
  dict_has args "query" = false \/ dict_has args "project_id" = false ->
  sql_query_dryrun_callback cfg dry tool args s = (Ret None, s).
Proof.
  intros H. apply sql_query_dryrun_callback_skip.
  destruct H as [H | H]; rewrite H;
    [now rewrite andb_false_r | now rewrite andb_false_r].
Qed.

Lemma sql_query_dryrun_callback_missing_args_witness :
  sql_query_dryrun_callback config dry_fail (mkTool "execute_sql")
    (dict_lit [("query", VStr "SELECT * FROM huge")]) ∅ = (Ret None, ∅).
Proof.
  apply sql_query_dryrun_callback_missing_args. right. reflexivity.
Defined.

(* ------------------------------------------------------------------ *)
(** ** Session state of the HITL app *)

(** The keys any step of the HITL app writes. *)
Definition hitl_written_key (k : string) : Prop :=
  k = "pending_query" \/ k = "pending_query_bytes" \/
  k = "pending_query_project_id" \/ k ∈ hitl_output_keys.

Lemma hitl_step_other_key (cfg : HitlConfiguration) (s s' : dict) (k : string) :
  ~ hitl_written_key k -> hitl_step cfg s s' -> s' !! k = s !! k.
Proof.
  intros Hk Hs. destruct Hs as [dry q p s | k' t s Hk'].
  - apply check_query_cost_state_other; intros ->; apply Hk; unfold hitl_written_key; tauto.
  - apply lookup_insert_ne. intros ->. apply Hk. unfold hitl_written_key. tauto.
Qed.

Lemma hitl_reachable_other_key (cfg : HitlConfiguration) (s s' : dict) (k : string) :
  ~ hitl_written_key k -> hitl_reachable cfg s s' -> s' !! k = s !! k.
Proof.
  intros Hk Hr. induction Hr as [s | s1 s2 s3 H12 _ IH]; [reflexivity |].
  rewrite IH. exact (hitl_step_other_key cfg s1 s2 k Hk H12).
Qed.

Lemma approved_query_not_written : ~ hitl_written_key "approved_query".
Proof.
  unfold hitl_written_key, hitl_output_keys.
  intros [H | [H | [H | H]]]; try discriminate.
  apply list_elem_of_In in H. cbn in H. intuition discriminate.
Qed.

(** The two routes by which C4 allows [approved_query] to receive the value
    [v] on the way from [s0] to [s']: a copy of a [pending_query] recorded in
    some state between them, or a query that [check_query_cost] answered
    [APPROVED] for (the low-cost path).  The user's affirmative utterance is
    not part of the model, so the first route is not narrowed further. *)
Definition approved_query_allowed_value (cfg : HitlConfiguration) (s0 s' : dict)
    (v : PyVal) : Prop :=
  (exists s1, hitl_reachable cfg s0 s1 /\ hitl_reachable cfg s1 s' /\
              s1 !! "pending_query" = Some v)
  \/ (exists dry p s1 r, hitl_reachable cfg s0 s1 /\
        fst (check_query_cost cfg dry v p s1) = Ret r /\
        r !! "status" = Some (VStr "APPROVED")).

(** C4: starting from a session without [approved_query], every reachable
    state either still has none, or holds a value that came by one of the two
    allowed routes; no other route sets it.  In the code no step writes the
    key at all (setting it is asked of the model in prompt text only), so the
    first alternative is the one that always holds. *)
Theorem hitl_approved_query_only_allowed_routes (cfg : HitlConfiguration)
    (s s' : dict) :
  s !! "approved_query" = None ->
  hitl_reachable cfg s s' ->
  s' !! "approved_query" = None /\
  (forall v, s' !! "approved_query" = Some v ->
             approved_query_allowed_value cfg s s' v).
Proof.
  intros H0 Hr.
  pose proof (hitl_reachable_other_key cfg s s' _ approved_query_not_written Hr)
    as Hk.
  rewrite H0 in Hk. split; [exact Hk |].
  intros v Hv. rewrite Hk in Hv. discriminate.
Qed.

(** A run of the app on the low-cost path: a check answered [APPROVED],
    then the planner's text stored under [query_plan]. *)
Definition low_cost_run : dict :=
  <["query_plan" := VStr "plan"]>
    (snd (check_query_cost hitl_config (dry_const 100) (VStr "SELECT 1") (VStr "p") ∅)).

Lemma hitl_approved_query_only_allowed_routes_witness :
  (∅ : dict) !! "approved_query" = None /\ low_cost_run !! "approved_query" = None.
Proof.
  assert (Hr : hitl_reachable hitl_config ∅ low_cost_run).
  { eapply rtc_l; [apply hitl_step_check_query_cost |].
    eapply rtc_l; [apply (hitl_step_output_key hitl_config "query_plan" "plan") |].
    - left.
    - apply rtc_refl. }
  split; [reflexivity |].
  exact (proj1 (hitl_approved_query_only_allowed_routes hitl_config ∅ low_cost_run
                  eq_refl Hr)).
Defined.

(* ------------------------------------------------------------------ *)
(** ** Further properties of the plain agent's callbacks *)

Lemma filter_cons_true {A} (f : A -> bool) (x : A) (l : list A) :
  f x = true -> List.filter f (x :: l) = x :: List.filter f l.
Proof. intros H. cbn. now rewrite H. Qed.

Lemma filter_cons_false {A} (f : A -> bool) (x : A) (l : list A) :
  f x = false -> List.filter f (x :: l) = List.filter f l.
Proof. intros H. cbn. now rewrite H. Qed.

Lemma update_bigquery_api_count_eq (tool : BaseTool) (args resp s : dict) (n : Z) :
  counter_value s = Some n ->
  update_bigquery_api_count tool args resp s =
  (Ret tt, if is_counted_failure (tool, args, resp)
           then <["bigquery_api_failure" := VInt (n + 1)]> s else s).
Proof.
  intros Hc. unfold update_bigquery_api_count, is_counted_failure. cbn [existsb].
  rewrite orb_false_r.
  destruct (String.eqb (name tool) "execute_sql"); cbn [andb]; [| reflexivity].
  destruct (py_eq_str (dict_get resp "status" VNone) "ERROR"); [| reflexivity].
  unfold bind, state_get, lift, state_set, dict_get.
  unfold counter_value in Hc.
  destruct (s !! "bigquery_api_failure") as [[] |];
    try discriminate; injection Hc as <-; reflexivity.
Qed.

(** For any tool other than [execute_sql] (table and dataset listing,
    table info), the before-tool callbacks of [root_agent] let the call
    through: no keyword check, no dry-run, no state change. *)
Theorem root_agent_callbacks_other_tool (dry : DryRun) (tool : BaseTool)
    (args s : dict) :
  name tool <> "execute_sql" ->
  run_before_tool_callbacks (root_agent_before_tool_callback dry) tool args s
  = (Ret None, s).
Proof.
  intros Hn. apply String.eqb_neq in Hn.
  unfold root_agent_before_tool_callback. cbn [run_before_tool_callbacks].
  unfold bind at 1, validate_sql_callback. rewrite Hn. cbn [py_resp_truthy ret].
  unfold bind. rewrite sql_query_dryrun_callback_skip by (rewrite Hn; reflexivity).
  reflexivity.
Qed.

Lemma root_agent_callbacks_other_tool_witness :
  run_before_tool_callbacks (root_agent_before_tool_callback dry_fail)
    (mkTool "get_table_info")
    (dict_lit [("query", VStr "DELETE FROM t"); ("project_id", VStr "p")]) ∅
  = (Ret None, ∅).
Proof. apply root_agent_callbacks_other_tool. discriminate. Defined.

(** An [execute_sql] call with a string query and a project id goes through
    both callbacks: a query containing "delete" (any case) gets the keyword
    refusal; otherwise the dry-run decides, and an exception it raises is not
    caught but ends the callback chain; an estimate above 10^9 bytes gets
    the size refusal, any other estimate lets the call run.  The session
    state is never changed. *)
Theorem root_agent_callbacks_execute_sql (dry : DryRun) (tool : BaseTool)
    (args : dict) (q : string) (s : dict) :
  name tool = "execute_sql" -> args !! "query" = Some (VStr q) ->
  dict_has args "project_id" = true ->
  run_before_tool_callbacks (root_agent_before_tool_callback dry) tool args s =
  (if str_contains "delete" (py_lower q) then Ret (Some delete_refusal)
   else match dry (VStr q) (dict_get args "project_id" VNone) with
        | Raise e => Raise e
        | Ret b => Ret (if b >? 1000000000
                        then Some (dry_run_refusal b 1000000000) else None)
        end, s).
Proof.
  intros Hn Hq Hp.
  unfold root_agent_before_tool_callback. cbn [run_before_tool_callbacks].
  unfold bind at 1, validate_sql_callback, dict_get at 1.
  rewrite Hn, Hq. cbn [String.eqb Ascii.eqb Bool.eqb].
  destruct (str_contains "delete" (py_lower q)); [reflexivity |].
  cbn [py_resp_truthy ret]. unfold bind.
  unfold sql_query_dryrun_callback. rewrite Hn, Hp.
  assert (Hq' : dict_has args "query" = true) by (unfold dict_has; rewrite Hq; reflexivity).
  rewrite Hq'. cbn [String.eqb Ascii.eqb Bool.eqb andb].
  unfold lift, dict_get at 1. rewrite Hq.
  destruct (dry (VStr q) (dict_get args "project_id" VNone)) as [b | e]; [| reflexivity].
  cbn [dry_run_threshold_bytes config]. cbv [bind lift ret].
  destruct (b >? 1000000000); reflexivity.
Qed.

Lemma root_agent_callbacks_execute_sql_witness :
  run_before_tool_callbacks (root_agent_before_tool_callback (dry_const 4000000000))
    (mkTool "execute_sql")
    (dict_lit [("query", VStr "SELECT * FROM big"); ("project_id", VStr "p")]) ∅
  = (Ret (Some (dry_run_refusal 4000000000 1000000000)), ∅).
Proof.
  rewrite (root_agent_callbacks_execute_sql _ _ _ "SELECT * FROM big") by reflexivity.
  reflexivity.
Defined.

(** An [execute_sql] call whose query argument is present but not a string
    (e.g. [None]) makes the keyword check raise ([.lower()] fails), so the
    callback chain raises before any dry-run, whatever the dry-run would
    do, and the state is unchanged. *)
Theorem root_agent_callbacks_non_string_query (dry : DryRun) (tool : BaseTool)
    (args s : dict) (v : PyVal) :
  name tool = "execute_sql" -> args !! "query" = Some v ->
  (forall q, v <> VStr q) ->
  exists e, run_before_tool_callbacks (root_agent_before_tool_callback dry) tool args s
            = (Raise e, s).
Proof.
  intros Hn Hq Hv.
  unfold root_agent_before_tool_callback. cbn [run_before_tool_callbacks].
  unfold bind, validate_sql_callback, dict_get. rewrite Hn, Hq.
  cbn [String.eqb Ascii.eqb Bool.eqb].
  destruct v as [| | | q]; [eexists; reflexivity .. |].
  exfalso. exact (Hv q eq_refl).
Qed.

Lemma root_agent_callbacks_non_string_query_witness :
  exists e, run_before_tool_callbacks (root_agent_before_tool_callback (dry_const 0))
              (mkTool "execute_sql")
              (dict_lit [("query", VNone); ("project_id", VStr "p")]) ∅
            = (Raise e, ∅).
Proof.
  apply (root_agent_callbacks_non_string_query _ _ _ _ VNone);
    [reflexivity | reflexivity | discriminate].
Defined.

(** The after-tool callback writes no session key other than
    [bigquery_api_failure], whatever the tool, the response or the state,
    also when it raises. *)
Theorem update_bigquery_api_count_other_keys (tool : BaseTool) (args resp s : dict)
    (k : string) :
  k <> "bigquery_api_failure" ->
  snd (update_bigquery_api_count tool args resp s) !! k = s !! k.
Proof.
  intros Hk. unfold update_bigquery_api_count.
  destruct (existsb (String.eqb (name tool)) ["execute_sql"]); [| reflexivity].
  destruct (py_eq_str (dict_get resp "status" VNone) "ERROR"); [| reflexivity].
  unfold bind, state_get, lift, state_set.
  destruct (py_add_one (dict_get s "bigquery_api_failure" (VInt 0))); cbn [snd];
    [| reflexivity].
  apply lookup_insert_ne. congruence.
Qed.

Lemma update_bigquery_api_count_other_keys_witness :
  snd (update_bigquery_api_count (mkTool "execute_sql") ∅
         (dict_lit [("status", VStr "ERROR")])
         (dict_lit [("query_plan", VStr "plan")])) !! "query_plan"
  = Some (VStr "plan").
Proof. apply update_bigquery_api_count_other_keys. discriminate. Defined.

(** A counted failure on a counter that holds a string or [None] raises a
    TypeError ([failure_count + 1]) and leaves the state as it was. *)
Theorem update_bigquery_api_count_bad_counter (tool : BaseTool) (args resp s : dict)
    (v : PyVal) :
  is_counted_failure (tool, args, resp) = true ->
  s !! "bigquery_api_failure" = Some v -> (v = VNone \/ exists t, v = VStr t) ->
  exists e, update_bigquery_api_count tool args resp s = (Raise e, s).
Proof.
  intros Hf Hs Hv. unfold is_counted_failure in Hf.
  unfold update_bigquery_api_count. cbn [existsb]. rewrite orb_false_r.
  destruct (String.eqb (name tool) "execute_sql"); [| discriminate].
  destruct (py_eq_str (dict_get resp "status" VNone) "ERROR"); [| discriminate].
  unfold bind, state_get, lift, dict_get. rewrite Hs.
  destruct Hv as [-> | [t ->]]; eexists; reflexivity.
Qed.

Lemma update_bigquery_api_count_bad_counter_witness :
  exists e, update_bigquery_api_count (mkTool "execute_sql") ∅
              (dict_lit [("status", VStr "ERROR")])
              (dict_lit [("bigquery_api_failure", VStr "3")])
            = (Raise e, dict_lit [("bigquery_api_failure", VStr "3")]).
Proof.
  apply (update_bigquery_api_count_bad_counter _ _ _ _ (VStr "3"));
    [reflexivity | reflexivity | right; eexists; reflexivity].
Defined.

(** Over a sequence of tool calls, starting from an integer counter [n] (or
    none, read as 0), the after-tool callback never raises and leaves the
    counter at [n] plus the number of [execute_sql] calls whose response
    had status "ERROR". *)
Theorem run_after_tool_callbacks_count (calls : list (BaseTool * dict * dict))
    (s : dict) (n : Z) :
  counter_value s = Some n ->
  exists s', run_after_tool_callbacks calls s = (Ret tt, s')
             /\ counter_value s' = Some (n + Z.of_nat (length (List.filter is_counted_failure calls))).
Proof.
  revert s n. induction calls as [| [[tool args] resp] rest IH]; intros s n Hc.
  - exists s. split; [reflexivity |]. rewrite Z.add_0_r. exact Hc.
  - cbn [run_after_tool_callbacks]. unfold bind at 1.
    pose proof (update_bigquery_api_count_eq tool args resp s n Hc) as Hu.
    destruct (is_counted_failure (tool, args, resp)) eqn:Hf; rewrite Hu.
    + assert (Hc' : counter_value (<["bigquery_api_failure" := VInt (n + 1)]> s)
                    = Some (n + 1))
        by (unfold counter_value; rewrite lookup_insert_eq; reflexivity).
      destruct (IH _ _ Hc') as (s' & Hrun & Hs').
      exists s'. split; [exact Hrun |]. rewrite Hs'.
      assert (E : length (List.filter is_counted_failure ((tool, args, resp) :: rest))
                  = S (length (List.filter is_counted_failure rest)))
        by (rewrite filter_cons_true by exact Hf; reflexivity).
      rewrite E. f_equal. lia.
    + assert (E : List.filter is_counted_failure ((tool, args, resp) :: rest)
                  = List.filter is_counted_failure rest)
        by (apply filter_cons_false; exact Hf).
      rewrite E. exact (IH s n Hc).
Qed.

Lemma run_after_tool_callbacks_count_witness :
  exists s', run_after_tool_callbacks
               [(mkTool "execute_sql", ∅, dict_lit [("status", VStr "ERROR")]);
                (mkTool "list_table_ids", ∅, dict_lit [("status", VStr "ERROR")]);
                (mkTool "execute_sql", ∅, dict_lit [("status", VStr "SUCCESS")]);
                (mkTool "execute_sql", ∅, dict_lit [("status", VStr "ERROR")])] ∅
             = (Ret tt, s') /\ counter_value s' = Some 2.
Proof.
  exact (run_after_tool_callbacks_count _ ∅ 0 eq_refl).
Defined.

(* ------------------------------------------------------------------ *)
(** ** Further properties of [check_query_cost] *)

Lemma check_query_cost_state (cfg : HitlConfiguration) (dry : DryRun)
    (q p : PyVal) (s : dict) :
  snd (check_query_cost cfg dry q p s) =
  match requires_approval cfg dry q p with
  | Some b => <["pending_query_project_id" := p]>
                (<["pending_query_bytes" := VInt b]> (<["pending_query" := q]> s))
  | None => s
  end.
Proof.
  unfold requires_approval.
  destruct (py_truthy q) eqn:Hq; [destruct (py_truthy p) eqn:Hp |]; cbn [andb].
  - destruct (dry q p) as [b | e] eqn:Hd.
    + rewrite (check_query_cost_dry_ok cfg dry q p b s Hq Hp Hd).
      destruct (b >=? approval_threshold_bytes cfg); reflexivity.
    + now rewrite (check_query_cost_dry_raise cfg dry q p e s Hq Hp Hd).
  - now rewrite check_query_cost_falsy by auto.
  - now rewrite check_query_cost_falsy by auto.
Qed.

(** Over any sequence of [check_query_cost] calls, the three [pending_*]
    keys describe the last call that required approval (query, estimate and
    project of that same call, never a mixture of two calls); later calls
    that were approved or failed leave them in place.  When no call required
    approval they keep their initial values, and no other key is ever
    written. *)
Theorem run_checks_pending (cfg : HitlConfiguration) (dry : DryRun)
    (calls : list (PyVal * PyVal)) (s : dict) :
  let s' := run_checks cfg dry calls s in
  (forall k, k <> "pending_query" -> k <> "pending_query_bytes" ->
             k <> "pending_query_project_id" -> s' !! k = s !! k) /\
  match last_requiring cfg dry calls with
  | Some (q, p, b) =>
      s' !! "pending_query" = Some q /\ s' !! "pending_query_bytes" = Some (VInt b)
      /\ s' !! "pending_query_project_id" = Some p
  | None =>
      s' !! "pending_query" = s !! "pending_query"
      /\ s' !! "pending_query_bytes" = s !! "pending_query_bytes"
      /\ s' !! "pending_query_project_id" = s !! "pending_query_project_id"
  end.
Proof.
  revert s. induction calls as [| [q p] rest IH]; intros s; cbn zeta.
  - split; [reflexivity | cbn; auto].
  - cbn [run_checks last_requiring].
    destruct (IH (snd (check_query_cost cfg dry q p s))) as [Hother Hlast].
    cbn zeta in Hother, Hlast. split.
    + intros k H1 H2 H3. rewrite Hother by assumption.
      apply check_query_cost_state_other; assumption.
    + destruct (last_requiring cfg dry rest) as [[[q' p'] b'] |]; [exact Hlast |].
      rewrite check_query_cost_state in Hlast |- *.
      destruct (requires_approval cfg dry q p) as [b |]; [| exact Hlast].
      destruct Hlast as (H1 & H2 & H3). rewrite H1, H2, H3.
      split; [| split]; simplify_map_eq; reflexivity.
Qed.

(** [f"{n:,}"] only inserts separators: with the commas removed it is
    [str(n)]. *)
Lemma digit_char_not_comma (d : Z) : 0 <= d < 10 -> digit_char d <> ","%char.
Proof.
  intros Hd. unfold digit_char.
  assert (Hn : (Z.to_nat d < 10)%nat) by lia.
  remember (Z.to_nat d) as k eqn:Ek. clear Ek Hd.
  do 10 (destruct k as [| k]; [discriminate |]). lia.
Qed.

Lemma digits_rev_no_comma (fuel : nat) (n : Z) :
  Forall (fun c => c <> ","%char) (digits_rev fuel n).
Proof.
  revert n. induction fuel as [| f IH]; intros n; cbn [digits_rev]; [constructor |].
  constructor.
  - apply digit_char_not_comma. pose proof (Z.mod_pos_bound n 10). lia.
  - destruct (n <? 10); [constructor | apply IH].
Qed.

Lemma filter_not_comma_id (ds : list ascii) :
  Forall (fun c => c <> ","%char) ds -> List.filter not_comma ds = ds.
Proof.
  induction 1 as [| c ds Hc _ IH]; [reflexivity |].
  rewrite filter_cons_true; [now rewrite IH |].
  unfold not_comma. destruct (Ascii.eqb_spec c ","%char); [contradiction | reflexivity].
Qed.

Lemma group3_remove_commas (ds : list ascii) :
  Forall (fun c => c <> ","%char) ds -> List.filter not_comma (group3 ds) = ds.
Proof.
  remember (length ds) as len eqn:El. revert ds El.
  induction len as [len IH] using lt_wf_ind; intros ds El Hds.
  destruct ds as [| a [| b [| c [| d rest]]]];
    try (apply filter_not_comma_id; exact Hds).
  change (group3 (a :: b :: c :: d :: rest))
    with (a :: b :: c :: ","%char :: group3 (d :: rest)).
  inversion Hds as [| ? ? Ha Hds1]; subst.
  inversion Hds1 as [| ? ? Hb Hds2]; subst.
  inversion Hds2 as [| ? ? Hc Hds3]; subst.
  assert (Hnc : forall x, x <> ","%char -> not_comma x = true)
    by (intros x Hx; unfold not_comma; destruct (Ascii.eqb_spec x ","%char);
        [contradiction | reflexivity]).
  rewrite !filter_cons_true by auto.
  rewrite filter_cons_false by reflexivity.
  do 3 f_equal. apply (IH (length (d :: rest))); [cbn; lia | reflexivity | exact Hds3].
Qed.

Lemma list_ascii_of_string_append (a b : string) :
  list_ascii_of_string (a ++ b) = list_ascii_of_string a ++ list_ascii_of_string b.
Proof.
  induction a as [| c a IH]; [reflexivity |].
  change (String c a ++ b)%string with (String c (a ++ b)). cbn. now rewrite IH.
Qed.

Lemma remove_commas_sign (n : Z) (l : list ascii) :
  remove_commas (sign_prefix n ++ string_of_list_ascii l) =
  (sign_prefix n ++ string_of_list_ascii (List.filter not_comma l))%string.
Proof.
  unfold remove_commas. rewrite list_ascii_of_string_append,
    list_ascii_of_string_of_list_ascii, List.filter_app.
  unfold sign_prefix. destruct (n <? 0); reflexivity.
Qed.

Theorem py_int_commas_remove_commas (n : Z) :
  remove_commas (py_int_commas n) = py_int_str n.
Proof.
  unfold py_int_commas, py_int_str. rewrite remove_commas_sign.
  rewrite List.filter_rev, group3_remove_commas; [reflexivity |].
  apply digits_rev_no_comma.
Qed.

(* ------------------------------------------------------------------ *)
(** ** Environment setup of [config.py] *)

Lemma environ_setdefault_lookup (k : string) (v : option string) (env env' : env_map)
    (j : string) :
  environ_setdefault k v env = Ret env' ->
  env' !! j = match env !! j with
              | Some u => Some u
              | None => if String.eqb j k then v else None
              end.
Proof.
  unfold environ_setdefault. destruct (env !! k) as [u |] eqn:Ek.
  - intros [= <-]. destruct (env !! j) eqn:Ej; [reflexivity |].
    destruct (String.eqb_spec j k); [congruence | reflexivity].
  - destruct v as [x |]; [intros [= <-] | discriminate].
    destruct (String.eqb_spec j k) as [-> | Hne].
    + rewrite Ek. apply lookup_insert_eq.
    + rewrite lookup_insert_ne by congruence. now destruct (env !! j).
Qed.

Lemma environ_setdefault_ok (k : string) (v : option string) (env : env_map) :
  v <> None \/ env !! k <> None -> exists env', environ_setdefault k v env = Ret env'.
Proof.
  intros H. unfold environ_setdefault.
  destruct (env !! k); [eauto |].
  destruct v; [eauto |]. destruct H; congruence.
Qed.

(** Loading [config.py] never overwrites an environment variable that is
    already set: it adds [GOOGLE_CLOUD_PROJECT] (the credentials' project),
    [GOOGLE_CLOUD_LOCATION = "global"] and [GOOGLE_GENAI_USE_VERTEXAI =
    "True"] only where they are missing and touches nothing else.  It
    succeeds whenever the credentials name a project or
    [GOOGLE_CLOUD_PROJECT] is already set. *)
Theorem config_module_init_env (project_id : option string) (env : env_map) :
  project_id <> None \/ env !! "GOOGLE_CLOUD_PROJECT" <> None ->
  exists env', config_module_init (Ret project_id) env = Ret env' /\
    forall k, env' !! k = match env !! k with
                          | Some v => Some v
                          | None => config_env_default project_id k
                          end.
Proof.
  intros H. unfold config_module_init. cbn [obind].
  destruct (environ_setdefault_ok _ _ _ H) as [env1 E1]. rewrite E1. cbn [obind].
  destruct (environ_setdefault_ok "GOOGLE_CLOUD_LOCATION" (Some "global") env1)
    as [env2 E2]; [left; discriminate |].
  rewrite E2. cbn [obind].
  destruct (environ_setdefault_ok "GOOGLE_GENAI_USE_VERTEXAI" (Some "True") env2)
    as [env3 E3]; [left; discriminate |].
  exists env3. split; [exact E3 |]. intros k.
  rewrite (environ_setdefault_lookup _ _ _ _ k E3),
    (environ_setdefault_lookup _ _ _ _ k E2), (environ_setdefault_lookup _ _ _ _ k E1).
  destruct (env !! k) as [u |]; [reflexivity |].
  unfold config_env_default.
  destruct (String.eqb_spec k "GOOGLE_CLOUD_PROJECT") as [-> | H1].
  - destruct project_id; reflexivity.
  - destruct (String.eqb_spec k "GOOGLE_CLOUD_LOCATION") as [-> | H2]; [reflexivity |].
    destruct (String.eqb_spec k "GOOGLE_GENAI_USE_VERTEXAI"); reflexivity.
Qed.

Lemma config_module_init_env_witness :
  exists env', config_module_init (Ret (Some "my-proj"))
                 (<["GOOGLE_CLOUD_LOCATION" := "us-central1"]> ∅) = Ret env' /\
    env' !! "GOOGLE_CLOUD_LOCATION" = Some "us-central1" /\
    env' !! "GOOGLE_CLOUD_PROJECT" = Some "my-proj" /\
    env' !! "GOOGLE_GENAI_USE_VERTEXAI" = Some "True".
Proof.
  destruct (config_module_init_env (Some "my-proj")
              (<["GOOGLE_CLOUD_LOCATION" := "us-central1"]> ∅)) as [env' [E H]];
    [left; discriminate |].
  exists env'. split; [exact E |].
  rewrite !H. split; [| split]; reflexivity.
Defined.

(** When the credentials carry no project ([None]) and
    [GOOGLE_CLOUD_PROJECT] is not set, loading [config.py] raises:
    [os.environ] does not accept [None] as a value. *)
Theorem config_module_init_no_project (env : env_map) :
  env !! "GOOGLE_CLOUD_PROJECT" = None ->
  exists e, config_module_init (Ret None) env = Raise e.
Proof.
  intros H. unfold config_module_init, environ_setdefault. cbn [obind].
  rewrite H. eexists. reflexivity.
Qed.

Lemma config_module_init_no_project_witness :
  exists e, config_module_init (Ret None)
              (<["GOOGLE_CLOUD_LOCATION" := "global"]> ∅) = Raise e.
Proof. apply config_module_init_no_project. reflexivity. Defined.

(* ------------------------------------------------------------------ *)
(** ** The event filter of [test_run] *)

(** The comprehension of [test_run] keeps, in stream order, exactly the
    events whose first content part has a truthy ["text"] and no truthy
    ["function_call"], as long as the test raises on no event; when it
    raises on some event, the whole comprehension raises. *)
Theorem final_text_responses_spec (events : list Json) :
  (Forall (fun e => exists b, is_final_text e = Ret b) events ->
   final_text_responses events = Ret (List.filter keep_event events)) /\
  (Exists (fun e => exists x, is_final_text e = Raise x) events ->
   exists x, final_text_responses events = Raise x).
Proof.
  induction events as [| e rest [IHok IHraise]]; split.
  - reflexivity.
  - intros H. inversion H.
  - intros H. inversion H as [| ? ? [b Hb] Hrest]; subst.
    cbn [final_text_responses]. rewrite Hb. cbn [obind].
    rewrite (IHok Hrest). cbn [obind].
    assert (Hk : keep_event e = b) by (unfold keep_event; now rewrite Hb).
    destruct b; [now rewrite filter_cons_true | now rewrite filter_cons_false].
  - intros H. cbn [final_text_responses].
    destruct (is_final_text e) as [b | x] eqn:Hb; cbn [obind]; [| eauto].
    inversion H as [? ? [x Hx] | ? ? Hrest]; subst; [congruence |].
    destruct (IHraise Hrest) as [x Hx]. rewrite Hx. cbn [obind]. eauto.
Qed.

Definition sample_events : list Json :=
  [JDict [("content", JDict [("parts", JList [JDict [("function_call", JDict [("name", JStr "list_dataset_ids")])]])])];
   JDict [("author", JStr "bigquery_agent_eval")];
   JDict [("content", JDict [("parts", JList [JDict [("text", JStr "3 tables")]])])]].

Lemma final_text_responses_spec_witness :
  final_text_responses sample_events = Ret [List.nth 2 sample_events JNone].
Proof.
  apply (proj1 (final_text_responses_spec sample_events)).
  repeat constructor; eexists; reflexivity.
Defined.

(** Every event the comprehension returns has a first content part with a
    truthy ["text"] and without a truthy ["function_call"]. *)
Theorem final_text_responses_selected (events l : list Json) :
  final_text_responses events = Ret l ->
  Forall (fun e => exists t f, first_part_field e "text" = Ret t /\ json_truthy t = true
                               /\ first_part_field e "function_call" = Ret f
                               /\ json_truthy f = false) l.
Proof.
  revert l. induction events as [| e rest IH]; intros l H.
  - cbn in H. injection H as <-. constructor.
  - cbn [final_text_responses] in H.
    destruct (is_final_text e) as [b | x] eqn:Hb; cbn [obind] in H; [| discriminate].
    destruct (final_text_responses rest) as [l' | x]; cbn [obind] in H; [| discriminate].
    injection H as <-. specialize (IH l' eq_refl).
    destruct b; [| exact IH].
    constructor; [| exact IH].
    unfold is_final_text in Hb.
    destruct (first_part_field e "text") as [t | x]; cbn [obind] in Hb; [| discriminate].
    destruct (json_truthy t) eqn:Ht; [| discriminate].
    destruct (first_part_field e "function_call") as [f | x]; cbn [obind] in Hb;
      [| discriminate].
    injection Hb as Hf. exists t, f. repeat split; auto.
    now destruct (json_truthy f).
Qed.

Lemma final_text_responses_selected_witness :
  Forall (fun e => exists t f, first_part_field e "text" = Ret t /\ json_truthy t = true
                               /\ first_part_field e "function_call" = Ret f
                               /\ json_truthy f = false)
    [List.nth 2 sample_events JNone].
Proof.
  exact (final_text_responses_selected sample_events _ eq_refl).
Defined.

(** Edge cases of the test on one event: a dict event without ["content"],
    or whose content has no ["parts"], is skipped without error (the
    defaults [{}] and [[{}]] apply); an event whose ["parts"] is an empty
    list makes [[0]] raise. *)
Theorem is_final_text_edges (kvs ckvs : list (string * Json)) :
  (assoc_lookup "content" kvs = None -> is_final_text (JDict kvs) = Ret false) /\
  (assoc_lookup "content" kvs = Some (JDict ckvs) -> assoc_lookup "parts" ckvs = None ->
   is_final_text (JDict kvs) = Ret false) /\
  (assoc_lookup "content" kvs = Some (JDict ckvs) ->
   assoc_lookup "parts" ckvs = Some (JList []) ->
   exists x, is_final_text (JDict kvs) = Raise x).
Proof.
  unfold is_final_text, first_part_field. cbn [json_get].
  split; [| split].
  - intros H. rewrite H. reflexivity.
  - intros H1 H2. rewrite H1. cbn [obind json_get]. rewrite H2. reflexivity.
  - intros H1 H2. rewrite H1. cbn [obind json_get]. rewrite H2. eexists. reflexivity.
Qed.

Lemma is_final_text_edges_witness :
  is_final_text (JDict [("author", JStr "agent")]) = Ret false /\
  exists x, is_final_text (JDict [("content", JDict [("parts", JList [])])]) = Raise x.
Proof.
  split.
  - apply (proj1 (is_final_text_edges [("author", JStr "agent")] [])). reflexivity.
  - apply (proj2 (proj2 (is_final_text_edges [("content", JDict [("parts", JList [])])]
                           [("parts", JList [])]))); reflexivity.
Defined.
